(** * Authentication views of AGP-Campus-Virtual

    A shallow embedding of [app/__init__.py] (the message catalog [Msg]) and
    of [app/auth/views.py] (the handlers [login], [register], [logout],
    [change_password], [password_reset_request] and [password_reset]).

    A handler is a computation over a [world]: the credential store, the
    login session, the pending flash messages and the mail outbox.  A Python
    exception is an outcome of the computation, and the effects that happened
    before it was raised stay in the world.  Debug [print]s write to the
    standard output only and are left out. *)

From Stdlib Require Import String Ascii List Bool.
Import ListNotations.
Open Scope string_scope.

(** ** Python values used by the views *)

(** [s.startswith(p)] *)
Definition startswith (s p : string) : bool := String.prefix p s.

(** Attribute lookup on a class body, [None] when the attribute is missing. *)
Fixpoint getattr {A : Type} (obj : list (string * A)) (name : string) : option A :=
  match obj with
  | [] => None
  | (k, v) :: rest => if String.eqb k name then Some v else getattr rest name
  end.

(** [template.format(key=value)] for a template whose replacement fields are
    all named: every field [{key}] is replaced by [value].  [skip] counts the
    characters of a field that was just replaced and are still to be dropped. *)
Fixpoint format_from (skip : nat) (key value template : string) : string :=
  match template with
  | EmptyString => EmptyString
  | String c rest =>
      match skip with
      | S k => format_from k key value rest
      | O =>
          let field := "{" ++ key ++ "}" in
          if String.prefix field template
          then value ++ format_from (String.length field - 1) key value rest
          else String c (format_from 0 key value rest)
      end
  end.

Definition format (template key value : string) : string :=
  format_from 0 key value template.

(** ** app/__init__.py: the message catalog *)

Definition namespace : Type := list (string * string).

Module Msg.

Definition Flash : namespace :=
  [ ("LOGOUT_USER", "Ha cerrado sesión correctamente.");
    ("NEW_USER", "Bienvenido {first_name}.");
    ("INVALID_CREDENTIALS", "Correo o contraseña inválidos.") ].

Definition UserRegistration : namespace :=
  [ ("ERROR_REQUIRED_FIELD", "Este campo es obligatorio.");
    ("ERROR_PASSWORD_MATCH", "Las contraseñas deben coincidir.");
    ("ERROR_EMAIL_IN_USE", "La dirección de correo ya ha sido registrada.");
    ("ERROR_ACCEPT_TERMS", "Debe aceptar los términos y condiciones para continuar.");
    ("ERROR_INVALID_EMAIL", "Por favor introduzca una dirección de correo válida.");
    ("ERROR_PASSWORD_LENGTH", "La contraseña debe medir entre 8 y 64 caracteres.");
    ("ERROR_PASSWORD_AT_LEAST_ONE_NUMBER", "La contraseña debe conenter al menos un número.");
    ("ERROR_PASSWORD_AT_LEAST_ONE_UPPERCASE",
      "La contraseña debe conenter al menos una letra mayúscula.");
    ("ERROR_PASSWORD_AT_LEAST_ONE_LOWERCASE",
      "La contraseña debe conenter al menos una letra minúscula.");
    ("ERROR_PASSWORD_AT_LEAST_ONE_SPECIAL_CHARACTER",
      "La contraseña debe contener al menos un caracter especial: {}.");
    ("ACCEPT_TERMS", "He leído y acepto los términos y condiciones.") ].

(** The body of [class Msg]: its nested classes, by name. *)
Definition classes : list (string * namespace) :=
  [ ("Flash", Flash); ("UserRegistration", UserRegistration) ].

End Msg.

(** ** Collaborators outside the repository

    Flask's [url_for], Werkzeug's password hasher and the generator of reset
    tokens are libraries: the handlers are stated for any implementation. *)

Class Externals : Type := {
  url_for : string -> list (string * string) -> string;
  generate_password_hash : string -> string;
  check_password_hash : string -> string -> bool;
  new_token : nat -> string -> string;
  token_ttl : nat
}.

(** ** The world a request runs in *)

Record User : Type := mkUser {
  email : string;
  first_name : string;
  paternal_last_name : string;
  maternal_last_name : string;
  birth_date : string;
  gender : string;
  occupation : string;
  password_hash : string;
  reset_token : option (string * nat)  (* token value, expiry *)
}.

Record Mail : Type := mkMail {
  mail_to : string;
  mail_subject : string;
  mail_template : string;
  mail_user : User;
  mail_token : string
}.

Record world : Type := mkWorld {
  store : list User;            (* the user collection of the database *)
  current_user : option User;   (* flask_login.current_user, None when anonymous *)
  fresh : bool;                 (* flask_login.login_fresh() *)
  remembered : bool;            (* the remember flag of the session *)
  flashes : list string;        (* flashed messages, oldest first *)
  outbox : list Mail;           (* mails handed to send_email, oldest first *)
  clock : nat                   (* the time of the request *)
}.

Definition with_store (st : list User) (w : world) : world :=
  mkWorld st (current_user w) (fresh w) (remembered w) (flashes w) (outbox w) (clock w).

Definition with_session (u : option User) (f r : bool) (w : world) : world :=
  mkWorld (store w) u f r (flashes w) (outbox w) (clock w).

Definition with_flashes (fl : list string) (w : world) : world :=
  mkWorld (store w) (current_user w) (fresh w) (remembered w) fl (outbox w) (clock w).

Definition with_outbox (ob : list Mail) (w : world) : world :=
  mkWorld (store w) (current_user w) (fresh w) (remembered w) (flashes w) ob (clock w).

(** ** Computations that may raise *)

Inductive exn : Type :=
| AttributeError (obj attr : string).

Inductive outcome (A : Type) : Type :=
| Returned (a : A)
| Raised (e : exn).
Arguments Returned {A} a.
Arguments Raised {A} e.

Definition M (A : Type) : Type := world -> outcome A * world.

Definition ret {A : Type} (a : A) : M A := fun w => (Returned a, w).

Definition raise {A : Type} (e : exn) : M A := fun w => (Raised e, w).

Definition bind {A B : Type} (m : M A) (k : A -> M B) : M B :=
  fun w =>
    match m w with
    | (Returned a, w') => k a w'
    | (Raised e, w') => (Raised e, w')
    end.

Notation "x <- m ;; k" := (bind m (fun x => k))
  (at level 61, m at next level, right associativity).
Notation "m ;; k" := (bind m (fun _ => k))
  (at level 61, right associativity).

Definition gets {A : Type} (f : world -> A) : M A := fun w => (Returned (f w), w).

Definition modify (f : world -> world) : M unit := fun w => (Returned tt, f w).

(** [Msg.<cls>.<name>]: two attribute lookups, each of which may raise. *)
Definition Msg_attr (cls name : string) : M string :=
  match getattr Msg.classes cls with
  | None => raise (AttributeError "Msg" cls)
  | Some body =>
      match getattr body name with
      | None => raise (AttributeError cls name)
      | Some text => ret text
      end
  end.

(** ** Flask and Flask-Login *)

Inductive response : Type :=
| redirect (location : string)
| render_template (name : string)
| unauthorized      (* LoginManager.unauthorized() *)
| needs_refresh.    (* LoginManager.needs_refresh() *)

Record Request : Type := mkRequest {
  args : list (string * string)   (* the query string *)
}.

Definition flash (message : string) : M unit :=
  modify (fun w => with_flashes (flashes w ++ [message]) w).

Definition is_anonymous : M bool :=
  gets (fun w => match current_user w with None => true | Some _ => false end).

Definition login_user (user : User) (remember : bool) : M unit :=
  modify (with_session (Some user) true remember).

Definition logout_user : M unit :=
  modify (with_session None false false).

(** ** app/models.py *)

Section Models.

Context {ext : Externals}.

(** Modelled from the spec: [User.get_user] of [app/models.py] is missing;
    it is the store's [find_user_by_email(email) -> User?]. *)
Definition find_user_by_email (st : list User) (mail : string) : option User :=
  find (fun u => String.eqb (email u) mail) st.

Definition get_user (mail : string) : M (option User) :=
  gets (fun w => find_user_by_email (store w) mail).

(** Modelled from the spec: [User.check_password] of [app/models.py] is
    missing; it is the hasher's [verify(plaintext, digest)] on the stored
    digest. *)
Definition check_password (user : User) (password : string) : bool :=
  check_password_hash (password_hash user) password.

(** Modelled from the spec: [User.create_new_user] of [app/models.py] is
    missing; it builds the record with the hashed password and no reset
    token, and does not persist it. *)
Definition create_new_user
    (email first_name paternal_last_name maternal_last_name
     birth_date gender occupation password : string) : User :=
  mkUser email first_name paternal_last_name maternal_last_name
         birth_date gender occupation (generate_password_hash password) None.

(** Modelled from the spec: [save] of the document layer is missing; it is
    the store's [save(user)], which writes the record over the stored one
    with the same email, or adds it when there is none. *)
Fixpoint upsert (u : User) (st : list User) : list User :=
  match st with
  | [] => [u]
  | v :: rest =>
      if String.eqb (email v) (email u) then u :: rest else v :: upsert u rest
  end.

Definition save (user : User) : M unit :=
  modify (fun w => with_store (upsert user (store w)) w).

Definition set_password_hash (digest : string) (u : User) : User :=
  mkUser (email u) (first_name u) (paternal_last_name u) (maternal_last_name u)
         (birth_date u) (gender u) (occupation u) digest (reset_token u).

Definition set_reset_token (tok : option (string * nat)) (u : User) : User :=
  mkUser (email u) (first_name u) (paternal_last_name u) (maternal_last_name u)
         (birth_date u) (gender u) (occupation u) (password_hash u) tok.

(** Modelled from the spec: [User.generate_reset_token] of [app/models.py]
    is missing; it is the token generator's [generate(user) -> token], which
    issues a token bound to the user with an expiry and records it in the
    user's reset-token fields. *)
Definition generate_reset_token (user : User) : M string :=
  now <- gets clock ;;
  let token := new_token now (email user) in
  save (set_reset_token (Some (token, now + token_ttl)) user) ;;
  ret token.

(** Modelled from the spec: the token generator's [validate(token)], which
    returns the bound user only when the token is the one recorded for the
    user and has not expired. *)
Definition holds_token (now : nat) (token : string) (u : User) : bool :=
  match reset_token u with
  | Some (value, expiry) => String.eqb value token && Nat.ltb now expiry
  | None => false
  end.

Definition validate (now : nat) (token : string) (st : list User) : option User :=
  find (holds_token now token) st.

(** The token values recorded in the store, in the order of the users. *)
Definition issued_tokens (st : list User) : list string :=
  flat_map (fun u => match reset_token u with
                     | Some (value, _) => [value]
                     | None => []
                     end) st.

(** Modelled from the spec: [User.reset_password] of [app/models.py] is
    missing; it validates the token and, if valid, sets the new password,
    and the token is invalidated on the successful reset. *)
Definition reset_password (token new_password : string) : M bool :=
  now <- gets clock ;;
  st <- gets store ;;
  match validate now token st with
  | None => ret false
  | Some user =>
      save (set_reset_token None
              (set_password_hash (generate_password_hash new_password) user)) ;;
      ret true
  end.

(** Modelled from the spec: [send_email] of [app/email.py] is missing; it is
    the notifier's fire-and-forget [send], which hands the mail over. *)
Definition send_email (to subject template : string) (user : User) (token : string)
  : M unit :=
  modify (fun w => with_outbox (outbox w ++ [mkMail to subject template user token]) w).

End Models.

(** ** app/auth/forms.py: the submitted forms

    [validate_on_submit] is true when the request is a submission whose
    fields passed the validators of the form. *)

Record LoginForm : Type := mkLoginForm {
  login_validate_on_submit : bool;
  login_email : string;
  login_password : string;
  login_remember_me : bool
}.

Record RegisterForm : Type := mkRegisterForm {
  register_validate_on_submit : bool;
  register_email : string;
  register_first_name : string;
  register_paternal_last_name : string;
  register_maternal_last_name : string;
  register_birth_date : string;
  register_gender : string;
  register_occupation : string;
  register_password : string
}.

Record ChangePasswordForm : Type := mkChangePasswordForm {
  change_validate_on_submit : bool;
  change_old_password : string;
  change_password_data : string
}.

Record PasswordResetRequestForm : Type := mkPasswordResetRequestForm {
  request_validate_on_submit : bool;
  request_email : string
}.

Record PasswordResetForm : Type := mkPasswordResetForm {
  reset_validate_on_submit : bool;
  reset_password_data : string
}.

(** ** app/auth/views.py *)

Section Views.

Context {ext : Externals}.

(** The guard of [login] on the [next] query parameter. *)
Definition next_or_index (next : option string) : string :=
  match next with
  | None => url_for "main.index" []
  | Some next =>
      if negb (startswith next "/") then url_for "main.index" [] else next
  end.

Definition login (request : Request) (form : LoginForm) : M response :=
  anonymous <- is_anonymous ;;
  if negb anonymous then
    message <- Msg_attr "Flash" "ALREADY_LOGGED_IN" ;;
    flash message ;;
    ret (redirect (url_for "main.index" []))
  else if login_validate_on_submit form then
    user <- get_user (login_email form) ;;
    match user with
    | None =>
        message <- Msg_attr "Flash" "INVALID_CREDENTIALS" ;;
        flash message ;;
        ret (redirect (url_for "auth.login" []))
    | Some user =>
        let next := next_or_index (getattr (args request) "next") in
        if negb (check_password user (login_password form)) then
          message <- Msg_attr "Flash" "INVALID_CREDENTIALS" ;;
          flash message ;;
          ret (redirect (url_for "auth.login" [("next", next)]))
        else
          login_user user (login_remember_me form) ;;
          ret (redirect next)
    end
  else ret (render_template "auth/login.html").

Definition register (form : RegisterForm) : M response :=
  if register_validate_on_submit form then
    existing <- get_user (register_email form) ;;
    match existing with
    | Some _ =>
        message <- Msg_attr "UserRegistration" "ERROR_EMAIL_IN_USE" ;;
        flash message ;;
        ret (redirect (url_for "auth.register" []))
    | None =>
        let new_user :=
          create_new_user (register_email form) (register_first_name form)
            (register_paternal_last_name form) (register_maternal_last_name form)
            (register_birth_date form) (register_gender form)
            (register_occupation form) (register_password form) in
        save new_user ;;
        login_user new_user false ;;
        template <- Msg_attr "Flash" "NEW_USER" ;;
        flash (format template "first_name" (first_name new_user)) ;;
        ret (redirect (url_for "main.index" []))
    end
  else ret (render_template "auth/register.html").

Definition logout : M response :=
  anonymous <- is_anonymous ;;
  (if negb anonymous then
     logout_user ;;
     message <- Msg_attr "Flash" "LOGOUT_USER" ;;
     flash message
   else ret tt) ;;
  ret (redirect (url_for "main.index" [])).

(** The world [logout] leaves behind. *)
Definition logged_out (w : world) : world :=
  match current_user w with
  | None => w
  | Some _ =>
      with_flashes (flashes w ++ ["Ha cerrado sesión correctamente."])
        (with_session None false false w)
  end.

(** The decorator [@fresh_login_required] of Flask-Login, for a request whose
    method is not exempt and with logins enabled: an anonymous caller gets
    [unauthorized()], a stale session [needs_refresh()]. *)
Definition fresh_login_required (view : M response) : M response :=
  anonymous <- is_anonymous ;;
  if anonymous then ret unauthorized
  else
    is_fresh <- gets fresh ;;
    if negb is_fresh then ret needs_refresh else view.

(** [current_user.<attr>] for an attribute of [User]: the anonymous user of
    Flask-Login has none of them. *)
Definition current_user_attr (attr : string) : M User :=
  user <- gets current_user ;;
  match user with
  | Some user => ret user
  | None => raise (AttributeError "AnonymousUserMixin" attr)
  end.

(** The body of [change_password] from the comment "Check that the user
    curently signed in is still on the database" on, reached when neither
    of the two checks on the old password returned. *)
Definition change_password_commit (form : ChangePasswordForm) : M response :=
  current <- current_user_attr "email" ;;
  user <- get_user (email current) ;;
  match user with
  | None => ret (redirect (url_for "error.not_found" []))
  | Some user =>
      save (set_password_hash
              (generate_password_hash (change_password_data form)) user) ;;
      message <- Msg_attr "Flash" "PASSWORD_CHANGE_SUCCESFUL" ;;
      flash message ;;
      ret (redirect (url_for "main.index" []))
  end.

Definition change_password_view (form : ChangePasswordForm) : M response :=
  if change_validate_on_submit form then
    current <- current_user_attr "check_password" ;;
    if check_password current (change_old_password form) then
      if String.eqb (change_old_password form) (change_password_data form) then
        message <- Msg_attr "Flash" "SAME_AS_OLD_PASSWORD" ;;
        flash message ;;
        ret (redirect (url_for "auth.change_password" []))
      else change_password_commit form
    else
      message <- Msg_attr "Flash" "INVALID_OLD_PASSWORD" ;;
      flash message ;;
      ret (redirect (url_for "auth.change_password" []))
  else ret (render_template "auth/change_password.html").

Definition change_password (form : ChangePasswordForm) : M response :=
  fresh_login_required (change_password_view form).

Definition password_reset_request (form : PasswordResetRequestForm) : M response :=
  anonymous <- is_anonymous ;;
  if negb anonymous then ret (redirect (url_for "main.index" []))
  else if request_validate_on_submit form then
    user <- get_user (request_email form) ;;
    match user with
    | Some user =>
        token <- generate_reset_token user ;;
        subject <- Msg_attr "Mail" "RESET_PASSWORD_SUBJECT" ;;
        send_email (email user) subject "auth/email/reset_password" user token
    | None => ret tt
    end ;;
    message <- Msg_attr "Flash" "PASSWORD_RESET_EMAIL_SENT" ;;
    flash message ;;
    ret (redirect (url_for "auth.login" []))
  else ret (render_template "auth/reset_password.html").

Definition password_reset (token : string) (form : PasswordResetForm) : M response :=
  anonymous <- is_anonymous ;;
  if negb anonymous then ret (redirect (url_for "main.index" []))
  else if reset_validate_on_submit form then
    changed <- reset_password token (reset_password_data form) ;;
    if changed then
      message <- Msg_attr "Flash" "PASSWORD_CHANGE_SUCCESFUL" ;;
      flash message ;;
      ret (redirect (url_for "auth.login" []))
    else ret (redirect (url_for "main.index" []))
  else ret (render_template "auth/reset_password.html").

End Views.

(** ** A concrete set of collaborators, for running the handlers *)

Definition demo_routes : list (string * string) :=
  [ ("main.index", "/"); ("error.not_found", "/not-found");
    ("auth.login", "/login"); ("auth.register", "/register");
    ("auth.logout", "/logout"); ("auth.change_password", "/change-password");
    ("auth.password_reset_request", "/reset") ].

Definition demo_url_for (endpoint : string) (values : list (string * string)) : string :=
  match getattr demo_routes endpoint with
  | Some path => path
  | None => "/" ++ endpoint
  end ++ String.concat EmptyString (map (fun kv => "?" ++ fst kv ++ "=" ++ snd kv) values).

Definition demo : Externals := {|
  url_for := demo_url_for;
  generate_password_hash := fun password => "digest:" ++ password;
  check_password_hash := fun digest password => String.eqb digest ("digest:" ++ password);
  new_token := fun now mail => "token-for-" ++ mail;
  token_ttl := 3600
|}.

Definition ana : User :=
  mkUser "a@example.com" "Ana" "Ruiz" "Lara" "1990-01-01" "F" "Docente"
         "digest:Secreta#1" None.

Definition anonymous_world : world :=
  mkWorld [ana] None false false [] [] 100.

Definition ana_world : world :=
  mkWorld [ana] (Some ana) true false [] [] 100.

(** Ana's session outlives her record: the store no longer has her. *)
Definition deleted_ana_world : world :=
  mkWorld [] (Some ana) true false [] [] 100.

(** Ana has asked for a reset: her record carries a token valid until 3700. *)
Definition token_world : world :=
  mkWorld [set_reset_token (Some ("t0k3n", 3700)) ana] None false false [] [] 100.

Definition ana_login (password : string) : LoginForm :=
  mkLoginForm true "a@example.com" password false.

Definition nobody_login : LoginForm :=
  mkLoginForm true "nobody@example.com" "Secreta#1" false.

Definition ana_again : RegisterForm :=
  mkRegisterForm true "a@example.com" "Ana" "Ruiz" "Lara" "1990-01-01" "F" "Docente"
                 "Otra#Clave2".

(** Ana's session has gone stale: logged in, but not freshly. *)
Definition stale_ana_world : world :=
  mkWorld [ana] (Some ana) false true [] [] 100.

Definition beto_form : RegisterForm :=
  mkRegisterForm true "b@example.com" "Beto" "Soto" "Mora" "1988-05-17" "M" "Alumno"
                 "Clave#Beto3".

Definition beto : User :=
  mkUser "b@example.com" "Beto" "Soto" "Mora" "1988-05-17" "M" "Alumno"
         "digest:Clave#Beto3" None.

(** * Properties *)

Ltac run :=
  repeat (cbv beta iota delta
            [bind ret raise gets modify flash is_anonymous login_user logout_user
             get_user save send_email Msg_attr current_user_attr
             fresh_login_required];
          cbn [fst snd current_user fresh store flashes outbox clock negb]).

(** Case analysis on every test a handler makes, innermost test first. *)
Ltac split_cases :=
  repeat (cbn in *;
          match goal with
          | |- context [match ?x with _ => _ end] =>
              lazymatch x with
              | context [match _ with _ => _ end] => fail
              | _ => destruct x eqn:?
              end
          end).

Section LoginProperties.

Context {ext : Externals}.

Lemma startswith_slash (s : string) :
  startswith s "/" = true <-> exists rest, s = String "/" rest.
Proof.
  unfold startswith. destruct s as [|c rest].
  - split; [discriminate | intros [r Hr]; discriminate].
  - change (prefix "/" (String c rest))
      with (if ascii_dec "/"%char c then prefix EmptyString rest else false).
    destruct (ascii_dec "/"%char c) as [<-|Hne].
    + split; [eauto | intros _; destruct rest; reflexivity].
    + split; [discriminate | intros [r Hr]; congruence].
Qed.

Lemma login_success (request : Request) (form : LoginForm) (w : world) (user : User) :
  current_user w = None ->
  login_validate_on_submit form = true ->
  find_user_by_email (store w) (login_email form) = Some user ->
  check_password user (login_password form) = true ->
  login request form w =
    (Returned (redirect (next_or_index (getattr (args request) "next"))),
     with_session (Some user) true (login_remember_me form) w).
Proof.
  intros Hanon Hvalid Hfound Hpw.
  unfold login. run. rewrite Hanon. cbn. rewrite Hvalid. run.
  rewrite Hfound, Hpw. reflexivity.
Qed.

Lemma login_unknown_email (request : Request) (form : LoginForm) (w : world) :
  current_user w = None ->
  login_validate_on_submit form = true ->
  find_user_by_email (store w) (login_email form) = None ->
  login request form w =
    (Returned (redirect (url_for "auth.login" [])),
     with_flashes (flashes w ++ ["Correo o contraseña inválidos."]) w).
Proof.
  intros Hanon Hvalid Hmissing.
  unfold login. run. rewrite Hanon. cbn. rewrite Hvalid. run.
  rewrite Hmissing. reflexivity.
Qed.

Lemma login_wrong_password (request : Request) (form : LoginForm) (w : world) (user : User) :
  current_user w = None ->
  login_validate_on_submit form = true ->
  find_user_by_email (store w) (login_email form) = Some user ->
  check_password user (login_password form) = false ->
  login request form w =
    (Returned (redirect (url_for "auth.login"
                           [("next", next_or_index (getattr (args request) "next"))])),
     with_flashes (flashes w ++ ["Correo o contraseña inválidos."]) w).
Proof.
  intros Hanon Hvalid Hfound Hpw.
  unfold login. run. rewrite Hanon. cbn. rewrite Hvalid. run.
  rewrite Hfound, Hpw. reflexivity.
Qed.

(** C2: after a successful login the handler redirects to the [next] query
    parameter when it starts with '/', and to home when [next] is absent or
    does not start with '/'. *)
Theorem login_success_redirects_to_local_next_or_home
    (request : Request) (form : LoginForm) (w : world) (user : User) :
  current_user w = None ->
  login_validate_on_submit form = true ->
  find_user_by_email (store w) (login_email form) = Some user ->
  check_password user (login_password form) = true ->
  login request form w =
    (Returned (redirect
       match getattr (args request) "next" with
       | None => url_for "main.index" []
       | Some next => if startswith next "/" then next else url_for "main.index" []
       end),
     with_session (Some user) true (login_remember_me form) w).
Proof.
  intros Hanon Hvalid Hfound Hpw.
  rewrite (login_success request form w user Hanon Hvalid Hfound Hpw).
  unfold next_or_index.
  destruct (getattr (args request) "next") as [next|]; [|reflexivity].
  destruct (startswith next "/"); reflexivity.
Qed.

(** C9: the guard on [next] looks at the first character only, so after a
    successful login a [next] that begins with '/', the protocol-relative
    [//evil.example.com] included, is the redirect target as it is. *)
Theorem login_success_accepts_any_leading_slash
    (request : Request) (form : LoginForm) (w : world) (user : User) (rest : string) :
  current_user w = None ->
  login_validate_on_submit form = true ->
  find_user_by_email (store w) (login_email form) = Some user ->
  check_password user (login_password form) = true ->
  getattr (args request) "next" = Some (String "/" rest) ->
  login request form w =
    (Returned (redirect (String "/" rest)),
     with_session (Some user) true (login_remember_me form) w).
Proof.
  intros Hanon Hvalid Hfound Hpw Hnext.
  rewrite (login_success request form w user Hanon Hvalid Hfound Hpw), Hnext.
  unfold next_or_index.
  replace (startswith (String "/" rest) "/") with true; [reflexivity|].
  symmetry. apply startswith_slash. eauto.
Qed.

(** C3: a login with an email that matches no user and a login with the
    email of a user and a wrong password flash the same message, the
    catalog's invalid-credentials text, and nothing else. *)
Theorem login_failures_flash_same_message
    (request1 request2 : Request) (form1 form2 : LoginForm) (w1 w2 : world)
    (user : User) :
  current_user w1 = None ->
  current_user w2 = None ->
  login_validate_on_submit form1 = true ->
  login_validate_on_submit form2 = true ->
  find_user_by_email (store w1) (login_email form1) = None ->
  find_user_by_email (store w2) (login_email form2) = Some user ->
  check_password user (login_password form2) = false ->
  exists message : string,
    getattr Msg.Flash "INVALID_CREDENTIALS" = Some message /\
    flashes (snd (login request1 form1 w1)) = (flashes w1 ++ [message])%list /\
    flashes (snd (login request2 form2 w2)) = (flashes w2 ++ [message])%list.
Proof.
  intros Hanon1 Hanon2 Hvalid1 Hvalid2 Hmissing Hfound Hpw.
  rewrite (login_unknown_email request1 form1 w1 Hanon1 Hvalid1 Hmissing).
  rewrite (login_wrong_password request2 form2 w2 user Hanon2 Hvalid2 Hfound Hpw).
  eexists; repeat split; reflexivity.
Qed.

(** C10: the two failed logins differ in their redirect: with an unknown
    email the handler redirects to the login page without a [next] value,
    with a wrong password it redirects to the login page with a [next]
    value, which is the request's own [next] when that starts with '/'; so
    the responses differ wherever [url_for] tells the two calls apart. *)
Theorem login_failures_redirect_differently
    (request : Request) (form1 form2 : LoginForm) (w : world) (user : User) :
  (forall value : string,
      url_for "auth.login" [] <> url_for "auth.login" [("next", value)]) ->
  current_user w = None ->
  login_validate_on_submit form1 = true ->
  login_validate_on_submit form2 = true ->
  find_user_by_email (store w) (login_email form1) = None ->
  find_user_by_email (store w) (login_email form2) = Some user ->
  check_password user (login_password form2) = false ->
  exists value : string,
    fst (login request form1 w) = Returned (redirect (url_for "auth.login" [])) /\
    fst (login request form2 w) =
      Returned (redirect (url_for "auth.login" [("next", value)])) /\
    (forall rest : string,
        getattr (args request) "next" = Some (String "/" rest) ->
        value = String "/" rest) /\
    fst (login request form1 w) <> fst (login request form2 w) /\
    flashes (snd (login request form1 w)) = flashes (snd (login request form2 w)).
Proof.
  intros Hurl Hanon Hvalid1 Hvalid2 Hmissing Hfound Hpw.
  rewrite (login_unknown_email request form1 w Hanon Hvalid1 Hmissing).
  rewrite (login_wrong_password request form2 w user Hanon Hvalid2 Hfound Hpw).
  exists (next_or_index (getattr (args request) "next")). cbn [fst snd].
  repeat split.
  - intros rest Hnext. rewrite Hnext. unfold next_or_index.
    replace (startswith (String "/" rest) "/") with true; [reflexivity|].
    symmetry. apply startswith_slash. eauto.
  - intros Heq. injection Heq as Heq. exact (Hurl _ Heq).
Qed.

End LoginProperties.

Section StoreProperties.

Context {ext : Externals}.

Lemma find_user_by_email_email (st : list User) (mail : string) (u : User) :
  find_user_by_email st mail = Some u -> In u st /\ email u = mail.
Proof.
  unfold find_user_by_email. intros Hfind.
  apply find_some in Hfind as [Hin Heq].
  split; [exact Hin | now apply String.eqb_eq].
Qed.

Lemma find_user_by_email_none (st : list User) (mail : string) :
  find_user_by_email st mail = None -> ~ In mail (map email st).
Proof.
  unfold find_user_by_email. intros Hfind Hin.
  apply in_map_iff in Hin as [u [Heq Hin]].
  pose proof (find_none _ _ Hfind u Hin) as Hne. cbn in Hne.
  rewrite Heq, String.eqb_refl in Hne. discriminate.
Qed.

(** [save] keeps the emails of the store, and adds the email of the saved
    record when no stored record has it. *)
Lemma upsert_emails (u : User) (st : list User) :
  map email (upsert u st) =
    match find_user_by_email st (email u) with
    | Some _ => map email st
    | None => (map email st ++ [email u])%list
    end.
Proof.
  unfold find_user_by_email.
  induction st as [|v rest IH]; [reflexivity|]. cbn.
  destruct (String.eqb_spec (email v) (email u)) as [Heq|Hne].
  - cbn. now rewrite Heq.
  - cbn. rewrite IH. now destruct (find _ rest).
Qed.



End StoreProperties.

Section RegisterProperties.

Context {ext : Externals}.


(** C6: a valid registration whose email belongs to a stored user is
    rejected with the email-in-use message and a redirect to the
    registration page; nothing is saved, the stored users and the session
    are as before, and the emails of the store stay pairwise distinct. *)
Theorem register_rejects_email_in_use
    (form : RegisterForm) (w : world) (existing : User) :
  register_validate_on_submit form = true ->
  find_user_by_email (store w) (register_email form) = Some existing ->
  register form w =
    (Returned (redirect (url_for "auth.register" [])),
     with_flashes
       (flashes w ++ ["La dirección de correo ya ha sido registrada."]) w) /\
  getattr Msg.UserRegistration "ERROR_EMAIL_IN_USE" =
    Some "La dirección de correo ya ha sido registrada." /\
  store (snd (register form w)) = store w /\
  current_user (snd (register form w)) = current_user w /\
  (NoDup (map email (store w)) ->
   NoDup (map email (store (snd (register form w))))).
Proof.
  intros Hvalid Hfound.
  assert (Hrun : register form w =
    (Returned (redirect (url_for "auth.register" [])),
     with_flashes
       (flashes w ++ ["La dirección de correo ya ha sido registrada."]) w)).
  { unfold register. rewrite Hvalid. run. rewrite Hfound. reflexivity. }
  rewrite Hrun. repeat split. intros Hnodup. exact Hnodup.
Qed.

End RegisterProperties.

Section LogoutProperties.

Context {ext : Externals}.

Lemma logout_run (w : world) :
  logout w = (Returned (redirect (url_for "main.index" [])), logged_out w).
Proof.
  unfold logout, logged_out. run. destruct (current_user w); reflexivity.
Qed.

(** C8: logout always redirects to home; with a session it ends the session
    and flashes the confirmation, without one it changes nothing and flashes
    nothing; a second logout leaves the world the first one produced. *)
Theorem logout_idempotent (w : world) :
  fst (logout w) = Returned (redirect (url_for "main.index" [])) /\
  snd (logout w) =
    match current_user w with
    | None => w
    | Some _ =>
        with_flashes (flashes w ++ ["Ha cerrado sesión correctamente."])
          (with_session None false false w)
    end /\
  current_user (snd (logout w)) = None /\
  logout (snd (logout w)) =
    (Returned (redirect (url_for "main.index" [])), snd (logout w)).
Proof.
  rewrite logout_run. cbn [fst snd]. repeat split.
  - unfold logged_out. destruct (current_user w) eqn:Hcur; [reflexivity | exact Hcur].
  - rewrite logout_run. f_equal.
    unfold logged_out at 1.
    replace (current_user (logged_out w)) with (@None User); [reflexivity|].
    unfold logged_out. destruct (current_user w) eqn:Hcur; [reflexivity | now rewrite Hcur].
Qed.

End LogoutProperties.

Section TokenProperties.

Context {ext : Externals}.

Lemma holds_token_issued (now : nat) (token : string) (u : User) :
  holds_token now token u = true ->
  exists expiry, reset_token u = Some (token, expiry).
Proof.
  unfold holds_token. destruct (reset_token u) as [[value expiry]|]; [|discriminate].
  intros Hholds. apply andb_true_iff in Hholds as [Heq _].
  apply String.eqb_eq in Heq. subst. eauto.
Qed.

Lemma issued_tokens_in (st : list User) (u : User) (token : string) (expiry : nat) :
  In u st -> reset_token u = Some (token, expiry) -> In token (issued_tokens st).
Proof.
  intros Hin Htok. unfold issued_tokens. apply in_flat_map.
  exists u. split; [exact Hin|]. rewrite Htok. now left.
Qed.

Lemma not_issued_invalid (now : nat) (token : string) (st : list User) :
  ~ In token (issued_tokens st) -> validate now token st = None.
Proof.
  intros Hnot. unfold validate.
  destruct (find (holds_token now token) st) as [u|] eqn:Hfind; [|reflexivity].
  apply find_some in Hfind as [Hin Hholds].
  apply holds_token_issued in Hholds as [expiry Htok].
  exfalso. apply Hnot. eapply issued_tokens_in; eassumption.
Qed.

(** Once the record of the holder has been saved without its token, the
    token validates at no time: no other record carries it. *)
Lemma consumed_token_invalid
    (now now' : nat) (token digest : string) (st : list User) (user : User) :
  NoDup (map email st) ->
  NoDup (issued_tokens st) ->
  validate now token st = Some user ->
  validate now' token
    (upsert (set_reset_token None (set_password_hash digest user)) st) = None.
Proof.
  induction st as [|v rest IH]; intros Hemails Htokens Hvalid; [discriminate|].
  cbn in Hvalid. cbn [upsert set_reset_token set_password_hash email].
  destruct (holds_token now token v) eqn:Hholds.
  - injection Hvalid as <-. rewrite String.eqb_refl. cbn.
    apply holds_token_issued in Hholds as [expiry Htok].
    apply not_issued_invalid.
    cbn in Htokens. rewrite Htok in Htokens. cbn in Htokens.
    now inversion Htokens.
  - pose proof (find_some _ _ Hvalid) as [Hin Huser].
    apply holds_token_issued in Huser as [expiry Htok].
    pose proof (issued_tokens_in rest user token expiry Hin Htok) as Hissued.
    cbn in Hemails. inversion Hemails as [|mail mails Hfresh Hrest]; subst.
    destruct (String.eqb_spec (email v) (email user)) as [Heq|Hne].
    + exfalso. apply Hfresh. rewrite Heq. now apply in_map.
    + assert (Htail : NoDup (issued_tokens rest)).
      { cbn in Htokens. apply NoDup_app_remove_l in Htokens. exact Htokens. }
      assert (Hv : holds_token now' token v = false).
      { unfold holds_token.
        destruct (reset_token v) as [[value expiry']|] eqn:Hvtok; [|reflexivity].
        destruct (String.eqb_spec value token) as [->|Hneq]; [|reflexivity].
        exfalso. cbn in Htokens. rewrite Hvtok in Htokens. cbn in Htokens.
        inversion Htokens; contradiction. }
      cbn. rewrite Hv. apply IH; assumption.
Qed.

Lemma reset_password_run (token new_password : string) (w : world) :
  reset_password token new_password w =
    match validate (clock w) token (store w) with
    | None => (Returned false, w)
    | Some user =>
        (Returned true,
         with_store
           (upsert (set_reset_token None
                      (set_password_hash (generate_password_hash new_password) user))
                   (store w)) w)
    end.
Proof.
  unfold reset_password. run. destruct (validate (clock w) token (store w)); reflexivity.
Qed.

Lemma password_reset_run (token : string) (form : PasswordResetForm) (w : world) :
  current_user w = None ->
  reset_validate_on_submit form = true ->
  password_reset token form w =
    match validate (clock w) token (store w) with
    | None => (Returned (redirect (url_for "main.index" [])), w)
    | Some user =>
        (Raised (AttributeError "Flash" "PASSWORD_CHANGE_SUCCESFUL"),
         with_store
           (upsert (set_reset_token None
                      (set_password_hash
                         (generate_password_hash (reset_password_data form)) user))
                   (store w)) w)
    end.
Proof.
  intros Hanon Hvalid. unfold password_reset. run. rewrite Hanon. cbn.
  rewrite Hvalid. run.
  destruct (validate (clock w) token (store w)); reflexivity.
Qed.

End TokenProperties.

Section ResetProperties.

Context {ext : Externals}.

(** C7: once a submission with a token has changed a password (the store
    keeping emails and token values pairwise distinct), any later anonymous
    submission with the same token fails validation, whatever the time:
    [reset_password] returns false, and the handler redirects to home and
    leaves the store, hence every password, as it was. *)
Theorem reset_token_single_use
    (token : string) (form1 form2 : PasswordResetForm) (w w2 : world) :
  current_user w = None ->
  reset_validate_on_submit form1 = true ->
  NoDup (map email (store w)) ->
  NoDup (issued_tokens (store w)) ->
  fst (reset_password token (reset_password_data form1) w) = Returned true ->
  store w2 = store (snd (password_reset token form1 w)) ->
  current_user w2 = None ->
  reset_validate_on_submit form2 = true ->
  reset_password token (reset_password_data form2) w2 = (Returned false, w2) /\
  password_reset token form2 w2 =
    (Returned (redirect (url_for "main.index" [])), w2).
Proof.
  intros Hanon Hvalid1 Hemails Htokens Hchanged Hstore Hanon2 Hvalid2.
  rewrite reset_password_run in Hchanged.
  rewrite (password_reset_run token form1 w Hanon Hvalid1) in Hstore.
  destruct (validate (clock w) token (store w)) as [user|] eqn:Hfound;
    [|discriminate].
  cbn in Hstore.
  assert (Hgone : validate (clock w2) token (store w2) = None).
  { rewrite Hstore. eapply consumed_token_invalid; eassumption. }
  rewrite reset_password_run, (password_reset_run token form2 w2 Hanon2 Hvalid2).
  rewrite Hgone. split; reflexivity.
Qed.

(** A valid reset request for a stored email issues a token and then stops
    at the subject of the mail: [Msg] has no [Mail]. *)
Lemma password_reset_request_known_email
    (form : PasswordResetRequestForm) (w : world) (user : User) :
  current_user w = None ->
  request_validate_on_submit form = true ->
  find_user_by_email (store w) (request_email form) = Some user ->
  password_reset_request form w =
    (Raised (AttributeError "Msg" "Mail"),
     with_store
       (upsert (set_reset_token
                  (Some (new_token (clock w) (email user), clock w + token_ttl)) user)
               (store w)) w).
Proof.
  intros Hanon Hvalid Hfound.
  unfold password_reset_request. run. rewrite Hanon. cbn [negb].
  rewrite Hvalid. run. rewrite Hfound. reflexivity.
Qed.

(** A valid reset request for an email that is not stored stops at the
    flash: [Msg.Flash] has no [PASSWORD_RESET_EMAIL_SENT]. *)
Lemma password_reset_request_unknown_email
    (form : PasswordResetRequestForm) (w : world) :
  current_user w = None ->
  request_validate_on_submit form = true ->
  find_user_by_email (store w) (request_email form) = None ->
  password_reset_request form w =
    (Raised (AttributeError "Flash" "PASSWORD_RESET_EMAIL_SENT"), w).
Proof.
  intros Hanon Hvalid Hmissing.
  unfold password_reset_request. run. rewrite Hanon. cbn [negb].
  rewrite Hvalid. run. rewrite Hmissing. reflexivity.
Qed.

(** X23: no valid anonymous reset request returns a response, flashes or
    hands a mail over: each one ends in an exception. *)
Lemma password_reset_request_always_raises
    (form : PasswordResetRequestForm) (w : world) :
  current_user w = None ->
  request_validate_on_submit form = true ->
  exists e w',
    password_reset_request form w = (Raised e, w') /\
    flashes w' = flashes w /\ outbox w' = outbox w.
Proof.
  intros Hanon Hvalid.
  destruct (find_user_by_email (store w) (request_email form)) as [user|] eqn:Hfind.
  - rewrite (password_reset_request_known_email form w user Hanon Hvalid Hfind).
    do 2 eexists. repeat split.
  - rewrite (password_reset_request_unknown_email form w Hanon Hvalid Hfind).
    do 2 eexists. repeat split.
Qed.

End ResetProperties.

Section ChangePasswordProperties.

Context {ext : Externals}.

Variables (form : ChangePasswordForm) (w : world) (current : User).

Hypothesis Hcurrent : current_user w = Some current.
Hypothesis Hfresh : fresh w = true.
Hypothesis Hvalid : change_validate_on_submit form = true.

Lemma change_password_wrong_old_password :
  check_password current (change_old_password form) = false ->
  change_password form w =
    (Raised (AttributeError "Flash" "INVALID_OLD_PASSWORD"), w).
Proof.
  intros Hpw. unfold change_password, change_password_view. run.
  rewrite Hcurrent. cbn [negb]. rewrite Hfresh. cbn [negb]. rewrite Hvalid. run.
  rewrite Hcurrent, Hpw. reflexivity.
Qed.

Lemma change_password_same_as_old :
  check_password current (change_old_password form) = true ->
  change_old_password form = change_password_data form ->
  change_password form w =
    (Raised (AttributeError "Flash" "SAME_AS_OLD_PASSWORD"), w).
Proof.
  intros Hpw Hsame. unfold change_password, change_password_view. run.
  rewrite Hcurrent. cbn [negb]. rewrite Hfresh. cbn [negb]. rewrite Hvalid. run.
  rewrite Hcurrent, Hpw, Hsame, String.eqb_refl. reflexivity.
Qed.

(** X21: when the old password passes, the new one differs and the store
    no longer has a record for the email of the session, the handler
    redirects to the not-found page, flashes nothing and changes nothing. *)
Lemma change_password_user_deleted :
  check_password current (change_old_password form) = true ->
  change_old_password form <> change_password_data form ->
  find_user_by_email (store w) (email current) = None ->
  change_password form w =
    (Returned (redirect (url_for "error.not_found" [])), w).
Proof.
  intros Hpw Hnew Hgone. apply String.eqb_neq in Hnew.
  unfold change_password, change_password_view, change_password_commit. run.
  rewrite Hcurrent. cbn [negb]. rewrite Hfresh. cbn [negb]. rewrite Hvalid. run.
  rewrite Hcurrent, Hpw, Hnew. run. rewrite Hcurrent. run. rewrite Hgone. reflexivity.
Qed.

(** X22: an accepted change saves the digest of the new password over the
    stored record of the session's email, and then the handler stops at
    the flash: [Msg.Flash] has no [PASSWORD_CHANGE_SUCCESFUL]. *)
Lemma change_password_saves_then_raises (user : User) :
  check_password current (change_old_password form) = true ->
  change_old_password form <> change_password_data form ->
  find_user_by_email (store w) (email current) = Some user ->
  change_password form w =
    (Raised (AttributeError "Flash" "PASSWORD_CHANGE_SUCCESFUL"),
     with_store
       (upsert (set_password_hash
                  (generate_password_hash (change_password_data form)) user)
               (store w)) w).
Proof.
  intros Hpw Hnew Hfound. apply String.eqb_neq in Hnew.
  unfold change_password, change_password_view, change_password_commit. run.
  rewrite Hcurrent. cbn [negb]. rewrite Hfresh. cbn [negb]. rewrite Hvalid. run.
  rewrite Hcurrent, Hpw, Hnew. run. rewrite Hcurrent. run. rewrite Hfound. reflexivity.
Qed.

End ChangePasswordProperties.

(** * The handlers at concrete requests *)

Lemma login_success_redirects_to_local_next_or_home_witness :
  @login demo (mkRequest [("next", "/dashboard")]) (ana_login "Secreta#1") anonymous_world =
    (Returned (redirect "/dashboard"), with_session (Some ana) true false anonymous_world) /\
  @login demo (mkRequest [("next", "http://evil.example.com")]) (ana_login "Secreta#1")
         anonymous_world =
    (Returned (redirect "/"), with_session (Some ana) true false anonymous_world) /\
  @login demo (mkRequest []) (ana_login "Secreta#1") anonymous_world =
    (Returned (redirect "/"), with_session (Some ana) true false anonymous_world).
Proof.
  split; [|split].
  - exact (@login_success_redirects_to_local_next_or_home demo
             (mkRequest [("next", "/dashboard")]) (ana_login "Secreta#1")
             anonymous_world ana eq_refl eq_refl eq_refl eq_refl).
  - exact (@login_success_redirects_to_local_next_or_home demo
             (mkRequest [("next", "http://evil.example.com")]) (ana_login "Secreta#1")
             anonymous_world ana eq_refl eq_refl eq_refl eq_refl).
  - exact (@login_success_redirects_to_local_next_or_home demo
             (mkRequest []) (ana_login "Secreta#1")
             anonymous_world ana eq_refl eq_refl eq_refl eq_refl).
Defined.

Lemma login_success_accepts_any_leading_slash_witness :
  @login demo (mkRequest [("next", "//evil.example.com")]) (ana_login "Secreta#1")
         anonymous_world =
    (Returned (redirect "//evil.example.com"),
     with_session (Some ana) true false anonymous_world).
Proof.
  exact (@login_success_accepts_any_leading_slash demo
           (mkRequest [("next", "//evil.example.com")]) (ana_login "Secreta#1")
           anonymous_world ana "/evil.example.com"
           eq_refl eq_refl eq_refl eq_refl eq_refl).
Defined.

Lemma login_failures_flash_same_message_witness :
  exists message : string,
    getattr Msg.Flash "INVALID_CREDENTIALS" = Some message /\
    flashes (snd (@login demo (mkRequest []) nobody_login anonymous_world)) =
      (flashes anonymous_world ++ [message])%list /\
    flashes (snd (@login demo (mkRequest []) (ana_login "equivocada") anonymous_world)) =
      (flashes anonymous_world ++ [message])%list.
Proof.
  exact (@login_failures_flash_same_message demo
           (mkRequest []) (mkRequest []) nobody_login (ana_login "equivocada")
           anonymous_world anonymous_world ana
           eq_refl eq_refl eq_refl eq_refl eq_refl eq_refl eq_refl).
Defined.

Lemma demo_url_for_tells_next (value : string) :
  demo_url_for "auth.login" [] <> demo_url_for "auth.login" [("next", value)].
Proof.
  cbv [demo_url_for getattr demo_routes String.eqb Ascii.eqb Bool.eqb
       map String.concat fst snd append].
  discriminate.
Qed.

Lemma login_failures_redirect_differently_witness :
  exists value : string,
    fst (@login demo (mkRequest [("next", "/cursos")]) nobody_login anonymous_world) =
      Returned (redirect (@url_for demo "auth.login" [])) /\
    fst (@login demo (mkRequest [("next", "/cursos")]) (ana_login "equivocada")
                anonymous_world) =
      Returned (redirect (@url_for demo "auth.login" [("next", value)])) /\
    (forall rest : string,
        getattr (args (mkRequest [("next", "/cursos")])) "next" = Some (String "/" rest) ->
        value = String "/" rest) /\
    fst (@login demo (mkRequest [("next", "/cursos")]) nobody_login anonymous_world) <>
    fst (@login demo (mkRequest [("next", "/cursos")]) (ana_login "equivocada")
                anonymous_world) /\
    flashes (snd (@login demo (mkRequest [("next", "/cursos")]) nobody_login
                         anonymous_world)) =
    flashes (snd (@login demo (mkRequest [("next", "/cursos")]) (ana_login "equivocada")
                         anonymous_world)).
Proof.
  exact (@login_failures_redirect_differently demo
           (mkRequest [("next", "/cursos")]) nobody_login (ana_login "equivocada")
           anonymous_world ana demo_url_for_tells_next
           eq_refl eq_refl eq_refl eq_refl eq_refl eq_refl).
Defined.

Lemma register_rejects_email_in_use_witness :
  @register demo ana_again anonymous_world =
    (Returned (redirect "/register"),
     with_flashes ["La dirección de correo ya ha sido registrada."] anonymous_world) /\
  store (snd (@register demo ana_again anonymous_world)) = [ana].
Proof.
  pose proof (@register_rejects_email_in_use demo ana_again anonymous_world ana
                eq_refl eq_refl) as [Hrun [_ [Hstore _]]].
  split; [exact Hrun | exact Hstore].
Defined.

Lemma reset_token_single_use_witness :
  @reset_password demo "t0k3n" "Tercera#3"
      (snd (@password_reset demo "t0k3n" (mkPasswordResetForm true "Nueva#Clave2")
                            token_world)) =
    (Returned false,
     snd (@password_reset demo "t0k3n" (mkPasswordResetForm true "Nueva#Clave2")
                          token_world)) /\
  @password_reset demo "t0k3n" (mkPasswordResetForm true "Tercera#3")
      (snd (@password_reset demo "t0k3n" (mkPasswordResetForm true "Nueva#Clave2")
                            token_world)) =
    (Returned (redirect "/"),
     snd (@password_reset demo "t0k3n" (mkPasswordResetForm true "Nueva#Clave2")
                          token_world)).
Proof.
  apply (@reset_token_single_use demo "t0k3n"
           (mkPasswordResetForm true "Nueva#Clave2")
           (mkPasswordResetForm true "Tercera#3") token_world).
  all: try reflexivity.
  - repeat constructor. intros [].
  - repeat constructor. intros [].
Defined.

(** C1: the catalog [Msg] does not define the keys the handlers flash for a
    stale old password, a new password equal to the old one, a changed
    password, a sent reset mail and a caller who is already logged in, nor
    the class [Mail] of the subject of the reset mail; so a change-password
    submission with a wrong old password, and a login request by a logged-in
    user, end in an [AttributeError] instead of a redirect with a flash, and
    the not-found redirect comes without a flash. *)
Theorem handlers_raise_on_missing_catalog_keys :
  getattr Msg.Flash "INVALID_OLD_PASSWORD" = None /\
  getattr Msg.Flash "SAME_AS_OLD_PASSWORD" = None /\
  getattr Msg.Flash "PASSWORD_CHANGE_SUCCESFUL" = None /\
  getattr Msg.Flash "PASSWORD_RESET_EMAIL_SENT" = None /\
  getattr Msg.Flash "ALREADY_LOGGED_IN" = None /\
  getattr Msg.classes "Mail" = None /\
  @change_password demo (mkChangePasswordForm true "equivocada" "Nueva#Clave2") ana_world =
    (Raised (AttributeError "Flash" "INVALID_OLD_PASSWORD"), ana_world) /\
  @login demo (mkRequest []) (ana_login "Secreta#1") ana_world =
    (Raised (AttributeError "Flash" "ALREADY_LOGGED_IN"), ana_world) /\
  @change_password demo (mkChangePasswordForm true "Secreta#1" "Nueva#Clave2")
                   deleted_ana_world =
    (Returned (redirect "/not-found"), deleted_ana_world).
Proof.
  repeat split.
Qed.

(** C4: a valid anonymous reset request never reaches its flash or its
    redirect.  For Ana's stored email the token is issued and saved, and the
    handler raises on [Msg.Mail] before any mail is handed over; for an
    unknown email it raises on [Msg.Flash.PASSWORD_RESET_EMAIL_SENT]. *)
Theorem password_reset_request_raises_for_known_and_unknown_email :
  @password_reset_request demo (mkPasswordResetRequestForm true "a@example.com")
                          anonymous_world =
    (Raised (AttributeError "Msg" "Mail"),
     with_store [set_reset_token (Some ("token-for-a@example.com", 3700)) ana]
                anonymous_world) /\
  outbox (snd (@password_reset_request demo
                 (mkPasswordResetRequestForm true "a@example.com") anonymous_world)) = [] /\
  flashes (snd (@password_reset_request demo
                  (mkPasswordResetRequestForm true "a@example.com") anonymous_world)) = [] /\
  @password_reset_request demo (mkPasswordResetRequestForm true "nobody@example.com")
                          anonymous_world =
    (Raised (AttributeError "Flash" "PASSWORD_RESET_EMAIL_SENT"), anonymous_world).
Proof.
  repeat split.
Qed.

(** C5: for Ana, freshly logged in, a change-password submission raises an
    [AttributeError] where a message should be flashed: with the new password
    equal to the old one and with a wrong old password the stored digest is
    unchanged; with a new password the new digest is saved and the handler
    then raises instead of flashing success and redirecting. *)
Theorem change_password_raises_instead_of_flashing :
  @change_password demo (mkChangePasswordForm true "Secreta#1" "Secreta#1") ana_world =
    (Raised (AttributeError "Flash" "SAME_AS_OLD_PASSWORD"), ana_world) /\
  @change_password demo (mkChangePasswordForm true "equivocada" "Nueva#Clave2") ana_world =
    (Raised (AttributeError "Flash" "INVALID_OLD_PASSWORD"), ana_world) /\
  @change_password demo (mkChangePasswordForm true "Secreta#1" "Nueva#Clave2") ana_world =
    (Raised (AttributeError "Flash" "PASSWORD_CHANGE_SUCCESFUL"),
     with_store [set_password_hash "digest:Nueva#Clave2" ana] ana_world).
Proof.
  repeat split.
Qed.

(** * Further properties of the handlers *)

Section LoginFurther.

Context {ext : Externals}.

(** X1: for a caller who is already logged in, [login] raises on the
    missing [Msg.Flash.ALREADY_LOGGED_IN], whatever was submitted, and
    leaves the world as it was. *)
Theorem login_logged_in_caller_raises
    (request : Request) (form : LoginForm) (w : world) (user : User) :
  current_user w = Some user ->
  login request form w = (Raised (AttributeError "Flash" "ALREADY_LOGGED_IN"), w).
Proof.
  intros Hcur. unfold login. run. rewrite Hcur. reflexivity.
Qed.

(** X2: [login] gives an anonymous caller a session only for a valid
    submission whose email finds a stored user and whose password passes
    that user's check; the session is then that user's, fresh, and
    remembered as the form asks. *)
Theorem login_session_requires_credentials
    (request : Request) (form : LoginForm) (w : world) (user : User) :
  current_user w = None ->
  current_user (snd (login request form w)) = Some user ->
  login_validate_on_submit form = true /\
  find_user_by_email (store w) (login_email form) = Some user /\
  check_password user (login_password form) = true /\
  fresh (snd (login request form w)) = true /\
  remembered (snd (login request form w)) = login_remember_me form.
Proof.
  intros Hanon. unfold login. run. rewrite Hanon. cbn [negb].
  destruct (login_validate_on_submit form); [|cbn; congruence]. run.
  destruct (find_user_by_email (store w) (login_email form)) as [found|];
    [|cbn; congruence].
  destruct (check_password found (login_password form)) eqn:Hpw; cbn;
    [|congruence].
  intros Hsession. injection Hsession as <-. repeat split. exact Hpw.
Qed.

(** X3: whenever [login] answers with a redirect, the location is the home
    URL, a URL of the login page, or the request's own [next], and in that
    last case [next] starts with '/'. *)
Theorem login_redirect_targets
    (request : Request) (form : LoginForm) (w : world) (location : string) :
  fst (login request form w) = Returned (redirect location) ->
  location = url_for "main.index" [] \/
  (exists values, location = url_for "auth.login" values) \/
  (getattr (args request) "next" = Some location /\ startswith location "/" = true).
Proof.
  unfold login, next_or_index. run.
  destruct (current_user w); cbn [negb]; [cbn; discriminate|].
  destruct (login_validate_on_submit form); [|cbn; discriminate]. run.
  destruct (find_user_by_email (store w) (login_email form)) as [found|].
  - destruct (check_password found (login_password form)); cbn [negb fst].
    + destruct (getattr (args request) "next") as [next|] eqn:Hnext.
      * destruct (startswith next "/") eqn:Hslash; cbn [negb];
          intros Hloc; injection Hloc as <-; auto.
      * intros Hloc; injection Hloc as <-; auto.
    + cbn. intros Hloc; injection Hloc as <-. right. left. eauto.
  - cbn. intros Hloc; injection Hloc as <-. right. left. eauto.
Qed.

(** X4: [login] never writes to the store, the outbox or the clock, and the
    only message it ever flashes is the invalid-credentials one. *)
Theorem login_never_writes_store
    (request : Request) (form : LoginForm) (w : world) :
  store (snd (login request form w)) = store w /\
  outbox (snd (login request form w)) = outbox w /\
  clock (snd (login request form w)) = clock w /\
  (flashes (snd (login request form w)) = flashes w \/
   flashes (snd (login request form w)) =
     (flashes w ++ ["Correo o contraseña inválidos."])%list).
Proof.
  unfold login. run. split_cases; auto.
Qed.

(** X5: where the home URL is itself a local path, the guard on [next] is
    idempotent: a successful login whose [next] is the guarded [next] of
    another request (as the redirect after a wrong password carries it)
    lands where a successful login on that request lands. *)
Theorem login_retry_keeps_target
    (request retry : Request) (form : LoginForm) (w : world) (user : User) :
  startswith (url_for "main.index" []) "/" = true ->
  current_user w = None ->
  login_validate_on_submit form = true ->
  find_user_by_email (store w) (login_email form) = Some user ->
  check_password user (login_password form) = true ->
  getattr (args retry) "next" = Some (next_or_index (getattr (args request) "next")) ->
  login retry form w = login request form w.
Proof.
  intros Hhome Hanon Hvalid Hfound Hpw Hretry.
  rewrite (login_success retry form w user Hanon Hvalid Hfound Hpw).
  rewrite (login_success request form w user Hanon Hvalid Hfound Hpw).
  rewrite Hretry. do 2 f_equal. f_equal.
  unfold next_or_index at 1.
  replace (startswith (next_or_index (getattr (args request) "next")) "/") with true;
    [reflexivity|].
  symmetry. unfold next_or_index.
  destruct (getattr (args request) "next") as [next|]; [|exact Hhome].
  destruct (startswith next "/") eqn:Hslash; cbn [negb]; [exact Hslash | exact Hhome].
Qed.

End LoginFurther.

Section RegisterFurther.

Context {ext : Externals}.

Lemma upsert_absent (u : User) (st : list User) :
  find_user_by_email st (email u) = None -> upsert u st = (st ++ [u])%list.
Proof.
  unfold find_user_by_email.
  induction st as [|v rest IH]; [reflexivity|]. cbn.
  destruct (String.eqb (email v) (email u)); [discriminate|].
  intros Hrest. now rewrite IH.
Qed.

Lemma find_user_by_email_snoc (st : list User) (u : User) (mail : string) :
  find_user_by_email (st ++ [u]) mail =
    match find_user_by_email st mail with
    | Some found => Some found
    | None => if String.eqb (email u) mail then Some u else None
    end.
Proof.
  unfold find_user_by_email.
  induction st as [|v rest IH]; [reflexivity|]. cbn.
  destruct (String.eqb (email v) mail); [reflexivity | exact IH].
Qed.

Lemma welcome_text (name : string) :
  format "Bienvenido {first_name}." "first_name" name = "Bienvenido " ++ name ++ ".".
Proof. reflexivity. Qed.

(** The record [register] builds from a form. *)
Lemma register_new_email (form : RegisterForm) (w : world) :
  register_validate_on_submit form = true ->
  find_user_by_email (store w) (register_email form) = None ->
  let new_user :=
    create_new_user (register_email form) (register_first_name form)
      (register_paternal_last_name form) (register_maternal_last_name form)
      (register_birth_date form) (register_gender form)
      (register_occupation form) (register_password form) in
  register form w =
    (Returned (redirect (url_for "main.index" [])),
     with_flashes (flashes w ++ ["Bienvenido " ++ register_first_name form ++ "."])
       (with_session (Some new_user) true false
          (with_store (store w ++ [new_user]) w))).
Proof.
  intros Hvalid Hnew new_user.
  unfold register. rewrite Hvalid. run. rewrite Hnew. run.
  fold new_user.
  rewrite (upsert_absent new_user (store w)) by exact Hnew.
  reflexivity.
Qed.


(** X7: whatever is submitted, an email that resolved to a stored record
    before [register] resolves to the same record after it: registration
    cannot overwrite or remove an account. *)
Theorem register_keeps_existing_accounts
    (form : RegisterForm) (w : world) (mail : string) (user : User) :
  find_user_by_email (store w) mail = Some user ->
  find_user_by_email (store (snd (register form w))) mail = Some user.
Proof.
  intros Hfound.
  destruct (register_validate_on_submit form) eqn:Hvalid.
  - destruct (find_user_by_email (store w) (register_email form)) as [existing|] eqn:Hmail.
    + unfold register. rewrite Hvalid. run. rewrite Hmail. exact Hfound.
    + rewrite (register_new_email form w Hvalid Hmail).
      cbn [snd store with_flashes with_session with_store].
      rewrite find_user_by_email_snoc, Hfound. reflexivity.
  - unfold register. rewrite Hvalid. exact Hfound.
Qed.

(** X8: after a registration that created an account, a second valid
    registration with the same email, whatever its other fields, is
    rejected with the email-in-use message and leaves store and session as
    the first one left them. *)
Theorem register_twice_second_rejected (first second : RegisterForm) (w : world) :
  register_validate_on_submit first = true ->
  register_validate_on_submit second = true ->
  find_user_by_email (store w) (register_email first) = None ->
  register_email second = register_email first ->
  register second (snd (register first w)) =
    (Returned (redirect (url_for "auth.register" [])),
     with_flashes
       (flashes (snd (register first w)) ++
          ["La dirección de correo ya ha sido registrada."])
       (snd (register first w))).
Proof.
  intros Hvalid1 Hvalid2 Hnew Hsame.
  rewrite (register_new_email first w Hvalid1 Hnew).
  unfold register at 1. rewrite Hvalid2. run. cbn [snd store with_flashes with_session with_store].
  rewrite Hsame, find_user_by_email_snoc, Hnew. cbn [create_new_user email].
  rewrite String.eqb_refl. reflexivity.
Qed.

(** X9: with a hasher that verifies what it hashed, a user who registers,
    logs out and logs in again with the email and password of the
    registration is logged in as the registered user. *)
Theorem register_logout_login_round_trip
    (request : Request) (form : RegisterForm) (remember : bool) (w : world) :
  (forall password, check_password_hash (generate_password_hash password) password = true) ->
  register_validate_on_submit form = true ->
  find_user_by_email (store w) (register_email form) = None ->
  let registered := snd (register form w) in
  let logged_off := snd (logout registered) in
  exists new_user : User,
    current_user registered = Some new_user /\
    current_user logged_off = None /\
    login request
          (mkLoginForm true (register_email form) (register_password form) remember)
          logged_off =
      (Returned (redirect (next_or_index (getattr (args request) "next"))),
       with_session (Some new_user) true remember logged_off).
Proof.
  intros Hhasher Hvalid Hnew registered logged_off.
  subst logged_off registered.
  rewrite (register_new_email form w Hvalid Hnew). cbn [snd].
  rewrite logout_run. cbn [snd].
  eexists. split; [reflexivity|]. split; [reflexivity|].
  apply login_success; try reflexivity.
  - cbn [store logged_out with_flashes with_session with_store current_user
         login_email].
    rewrite find_user_by_email_snoc, Hnew. cbn [create_new_user email].
    rewrite String.eqb_refl. reflexivity.
  - unfold check_password. cbn. apply Hhasher.
Qed.

End RegisterFurther.

Section ChangePasswordFurther.

Context {ext : Externals}.

(** Saving a record in place of the stored record of its email keeps every
    view of the store on which the two records agree. *)
Lemma upsert_same_image {A : Type} (f : User -> A) (u user : User) (st : list User) :
  find_user_by_email st (email u) = Some user ->
  f u = f user ->
  map f (upsert u st) = map f st.
Proof.
  unfold find_user_by_email.
  induction st as [|v rest IH]; [discriminate|]. cbn.
  destruct (String.eqb (email v) (email u)).
  - intros Hfound Hagree. injection Hfound as ->. cbn. now rewrite Hagree.
  - intros Hfound Hagree. cbn. now rewrite IH.
Qed.

(** X10: [change_password] does nothing for a caller without a fresh
    session: an anonymous caller gets [unauthorized()], a caller with a
    stale session [needs_refresh()], and the world is as it was, whatever
    the form holds. *)
Theorem change_password_requires_fresh_login (form : ChangePasswordForm) (w : world) :
  current_user w = None \/ fresh w = false ->
  change_password form w =
    (Returned match current_user w with
              | None => unauthorized
              | Some _ => needs_refresh
              end, w).
Proof.
  intros Hcaller. unfold change_password. run.
  destruct (current_user w) as [user|]; [|reflexivity].
  destruct Hcaller as [Hnone|Hstale]; [discriminate|].
  rewrite Hstale. reflexivity.
Qed.

(** X11: [change_password] writes to the store only for a freshly logged-in
    caller with a valid submission whose old password passes the caller's
    check and differs from the new one. *)
Theorem change_password_writes_only_when_verified
    (form : ChangePasswordForm) (w : world) :
  store (snd (change_password form w)) <> store w ->
  exists current : User,
    current_user w = Some current /\
    fresh w = true /\
    change_validate_on_submit form = true /\
    check_password current (change_old_password form) = true /\
    change_old_password form <> change_password_data form.
Proof.
  unfold change_password, change_password_view, change_password_commit. run.
  destruct (current_user w) as [current|] eqn:Hcur; cbn [negb];
    [|cbn; congruence].
  destruct (fresh w) eqn:Hfresh; cbn [negb]; [|cbn; congruence].
  destruct (change_validate_on_submit form) eqn:Hvalid; [|cbn; congruence].
  run. rewrite Hcur.
  destruct (check_password current (change_old_password form)) eqn:Hpw;
    [|cbn; congruence].
  destruct (String.eqb_spec (change_old_password form) (change_password_data form))
    as [Hsame|Hnew]; [cbn; congruence|].
  intros _. exists current. repeat split; assumption.
Qed.

(** X12: whatever is submitted and whoever calls, [change_password] keeps
    the records of the store in number and order and changes nothing in
    them but a password digest: emails, names, the other profile fields and
    the reset token stay. *)
Theorem change_password_touches_only_digest (form : ChangePasswordForm) (w : world) :
  map (set_password_hash EmptyString) (store (snd (change_password form w))) =
  map (set_password_hash EmptyString) (store w).
Proof.
  unfold change_password, change_password_view, change_password_commit. run.
  destruct (current_user w) as [current|] eqn:Hcur; cbn [negb]; [|reflexivity].
  destruct (fresh w); cbn [negb]; [|reflexivity].
  destruct (change_validate_on_submit form); [|reflexivity].
  run. rewrite Hcur.
  destruct (check_password current (change_old_password form)); [|reflexivity].
  destruct (String.eqb (change_old_password form) (change_password_data form));
    [reflexivity|].
  run. rewrite Hcur. run.
  destruct (find_user_by_email (store w) (email current)) as [user|] eqn:Hfound;
    [|reflexivity].
  cbn [snd store with_store].
  apply upsert_same_image with (user := user); [|reflexivity].
  cbn [set_password_hash email].
  destruct (find_user_by_email_email _ _ _ Hfound) as [_ Hmail].
  now rewrite Hmail.
Qed.

(** X13: [change_password] never touches the session, the outbox or the
    clock: after a change the caller stays logged in as before. *)
Theorem change_password_keeps_session (form : ChangePasswordForm) (w : world) :
  current_user (snd (change_password form w)) = current_user w /\
  fresh (snd (change_password form w)) = fresh w /\
  remembered (snd (change_password form w)) = remembered w /\
  outbox (snd (change_password form w)) = outbox w /\
  clock (snd (change_password form w)) = clock w.
Proof.
  unfold change_password, change_password_view, change_password_commit. run.
  split_cases; cbn; repeat split; congruence.
Qed.

End ChangePasswordFurther.

Section ResetFurther.

Context {ext : Externals}.

(** X14: for a caller who is logged in, both reset views redirect to home
    and do nothing else: no token is issued, and a token presented in the
    URL, valid or not, is not looked at and stays usable. *)
Theorem reset_views_send_logged_in_caller_home
    (request_form : PasswordResetRequestForm) (token : string)
    (reset_form : PasswordResetForm) (w : world) (user : User) :
  current_user w = Some user ->
  password_reset_request request_form w =
    (Returned (redirect (url_for "main.index" [])), w) /\
  password_reset token reset_form w =
    (Returned (redirect (url_for "main.index" [])), w).
Proof.
  intros Hcur. unfold password_reset_request, password_reset. run.
  rewrite Hcur. split; reflexivity.
Qed.

(** X15: an anonymous valid submission with a token that no stored user
    carries redirects to home with no flash and changes nothing: no password
    is touched. *)
Theorem password_reset_unknown_token_changes_nothing
    (token : string) (form : PasswordResetForm) (w : world) :
  current_user w = None ->
  reset_validate_on_submit form = true ->
  ~ In token (issued_tokens (store w)) ->
  password_reset token form w = (Returned (redirect (url_for "main.index" [])), w).
Proof.
  intros Hanon Hvalid Hunknown.
  rewrite (password_reset_run token form w Hanon Hvalid).
  now rewrite (not_issued_invalid (clock w) token (store w) Hunknown).
Qed.

Lemma reset_views_restore (request_form : PasswordResetRequestForm) (token : string)
    (reset_form : PasswordResetForm) (w : world) :
  with_store (store w) (snd (password_reset_request request_form w)) = w /\
  with_store (store w) (snd (password_reset token reset_form w)) = w.
Proof.
  unfold password_reset_request, password_reset, generate_reset_token, reset_password,
    with_store.
  run. destruct w as [st cur fr rem fl ob ck].
  split; split_cases; reflexivity.
Qed.

(** X16: the two reset views never change the session, the flashes, the
    outbox or the clock: they log nobody in, and as the catalog stands they
    flash nothing and hand no mail over. *)
Theorem reset_views_change_only_store
    (request_form : PasswordResetRequestForm) (token : string)
    (reset_form : PasswordResetForm) (w : world) :
  let unchanged (after : world) :=
    current_user after = current_user w /\ fresh after = fresh w /\
    remembered after = remembered w /\ flashes after = flashes w /\
    outbox after = outbox w /\ clock after = clock w in
  unchanged (snd (password_reset_request request_form w)) /\
  unchanged (snd (password_reset token reset_form w)).
Proof.
  cbv zeta.
  destruct (reset_views_restore request_form token reset_form w) as [Hrequest Hreset].
  split.
  - rewrite <- Hrequest at 2 4 6 8 10 12. repeat split.
  - rewrite <- Hreset at 2 4 6 8 10 12. repeat split.
Qed.

End ResetFurther.

Section AllViews.

Context {ext : Externals}.

(** X17: without a valid submission no form view changes the world,
    whoever calls it. *)
Theorem no_submission_no_effect
    (request : Request) (login_form : LoginForm) (register_form : RegisterForm)
    (change_form : ChangePasswordForm) (request_form : PasswordResetRequestForm)
    (token : string) (reset_form : PasswordResetForm) (w : world) :
  login_validate_on_submit login_form = false ->
  register_validate_on_submit register_form = false ->
  change_validate_on_submit change_form = false ->
  request_validate_on_submit request_form = false ->
  reset_validate_on_submit reset_form = false ->
  snd (login request login_form w) = w /\
  snd (register register_form w) = w /\
  snd (change_password change_form w) = w /\
  snd (password_reset_request request_form w) = w /\
  snd (password_reset token reset_form w) = w.
Proof.
  intros Hlogin Hregister Hchange Hrequest Hreset.
  unfold login, register, change_password, change_password_view,
    password_reset_request, password_reset.
  run. rewrite Hlogin, Hregister, Hchange, Hrequest, Hreset.
  destruct (current_user w); cbn [negb]; [destruct (fresh w)|];
    repeat split; reflexivity.
Qed.

(** X18: every view leaves the flashes it finds in place and appends at
    most one. *)
Theorem views_append_at_most_one_flash
    (request : Request) (login_form : LoginForm) (register_form : RegisterForm)
    (change_form : ChangePasswordForm) (request_form : PasswordResetRequestForm)
    (token : string) (reset_form : PasswordResetForm) (w : world) :
  let appends (after : world) :=
    exists added : list string,
      flashes after = (flashes w ++ added)%list /\ length added <= 1 in
  appends (snd (login request login_form w)) /\
  appends (snd (register register_form w)) /\
  appends (snd (logout w)) /\
  appends (snd (change_password change_form w)) /\
  appends (snd (password_reset_request request_form w)) /\
  appends (snd (password_reset token reset_form w)).
Proof.
  assert (Hnone : forall fl : list string,
             exists added, fl = (fl ++ added)%list /\ length added <= 1).
  { intros fl. exists []. split; [now rewrite app_nil_r | auto]. }
  assert (Hone : forall (fl : list string) (m : string),
             exists added, (fl ++ [m])%list = (fl ++ added)%list /\ length added <= 1).
  { intros fl m. exists [m]. split; [reflexivity | auto]. }
  cbv zeta.
  unfold login, register, logout, change_password, change_password_view,
    change_password_commit, password_reset_request, password_reset,
    generate_reset_token, reset_password.
  run. repeat split; split_cases; solve [apply Hnone | apply Hone].
Qed.

Lemma upsert_member_emails (u user : User) (st : list User) :
  In user st -> email u = email user ->
  map email (upsert u st) = map email st.
Proof.
  intros Hin Hmail. rewrite upsert_emails, Hmail.
  destruct (find_user_by_email st (email user)) eqn:Hfind; [reflexivity|].
  exfalso. apply (find_user_by_email_none _ _ Hfind). now apply in_map.
Qed.

(** X19: every view but [register] keeps the emails of the store as they
    are, in number and order; none of them adds or removes an account. *)
Theorem views_keep_accounts
    (request : Request) (login_form : LoginForm)
    (change_form : ChangePasswordForm) (request_form : PasswordResetRequestForm)
    (token : string) (reset_form : PasswordResetForm) (w : world) :
  map email (store (snd (login request login_form w))) = map email (store w) /\
  map email (store (snd (logout w))) = map email (store w) /\
  map email (store (snd (change_password change_form w))) = map email (store w) /\
  map email (store (snd (password_reset_request request_form w))) = map email (store w) /\
  map email (store (snd (password_reset token reset_form w))) = map email (store w).
Proof.
  split; [|split; [|split; [|split]]].
  - unfold login. run. split_cases; reflexivity.
  - rewrite logout_run. unfold logged_out. now destruct (current_user w).
  - unfold change_password, change_password_view, change_password_commit. run.
    destruct (current_user w) as [current|] eqn:Hcur; cbn [negb]; [|reflexivity].
    destruct (fresh w); cbn [negb]; [|reflexivity].
    destruct (change_validate_on_submit change_form); [|reflexivity].
    run. rewrite Hcur.
    destruct (check_password current (change_old_password change_form)); [|reflexivity].
    destruct (String.eqb (change_old_password change_form)
                         (change_password_data change_form)); [reflexivity|].
    run. rewrite Hcur. run.
    destruct (find_user_by_email (store w) (email current)) as [user|] eqn:Hfound;
      [|reflexivity].
    cbn [snd store with_store].
    apply upsert_member_emails with (user := user); [|reflexivity].
    exact (proj1 (find_user_by_email_email _ _ _ Hfound)).
  - unfold password_reset_request, generate_reset_token. run.
    destruct (current_user w); cbn [negb]; [reflexivity|].
    destruct (request_validate_on_submit request_form); [|reflexivity]. run.
    destruct (find_user_by_email (store w) (request_email request_form)) as [user|]
      eqn:Hfound; [|reflexivity].
    cbn [snd store with_store].
    apply upsert_member_emails with (user := user); [|reflexivity].
    exact (proj1 (find_user_by_email_email _ _ _ Hfound)).
  - destruct (current_user w) as [user|] eqn:Hcur.
    + unfold password_reset. run. rewrite Hcur. reflexivity.
    + destruct (reset_validate_on_submit reset_form) eqn:Hvalid.
      * rewrite (password_reset_run token reset_form w Hcur Hvalid).
        destruct (validate (clock w) token (store w)) as [user|] eqn:Hheld;
          [|reflexivity].
        cbn [snd store with_store].
        apply upsert_member_emails with (user := user); [|reflexivity].
        exact (proj1 (find_some _ _ Hheld)).
      * unfold password_reset. run. rewrite Hcur, Hvalid. reflexivity.
Qed.

End AllViews.

(** * The further properties at concrete requests *)

Lemma login_logged_in_caller_raises_witness :
  @login demo (mkRequest [("next", "/cursos")]) (ana_login "Secreta#1") ana_world =
    (Raised (AttributeError "Flash" "ALREADY_LOGGED_IN"), ana_world).
Proof.
  exact (@login_logged_in_caller_raises demo (mkRequest [("next", "/cursos")])
           (ana_login "Secreta#1") ana_world ana eq_refl).
Defined.

Lemma login_session_requires_credentials_witness :
  login_validate_on_submit (ana_login "Secreta#1") = true /\
  @find_user_by_email (store anonymous_world) (login_email (ana_login "Secreta#1")) =
    Some ana /\
  @check_password demo ana (login_password (ana_login "Secreta#1")) = true /\
  fresh (snd (@login demo (mkRequest []) (ana_login "Secreta#1") anonymous_world)) = true /\
  remembered (snd (@login demo (mkRequest []) (ana_login "Secreta#1") anonymous_world)) =
    login_remember_me (ana_login "Secreta#1").
Proof.
  exact (@login_session_requires_credentials demo (mkRequest [])
           (ana_login "Secreta#1") anonymous_world ana eq_refl eq_refl).
Defined.

Lemma login_redirect_targets_witness :
  "/dashboard" = @url_for demo "main.index" [] \/
  (exists values, "/dashboard" = @url_for demo "auth.login" values) \/
  (getattr (args (mkRequest [("next", "/dashboard")])) "next" = Some "/dashboard" /\
   startswith "/dashboard" "/" = true).
Proof.
  exact (@login_redirect_targets demo (mkRequest [("next", "/dashboard")])
           (ana_login "Secreta#1") anonymous_world "/dashboard" eq_refl).
Defined.

Lemma login_retry_keeps_target_witness :
  @login demo (mkRequest [("next", "/")]) (ana_login "Secreta#1") anonymous_world =
  @login demo (mkRequest [("next", "http://evil.example.com")]) (ana_login "Secreta#1")
         anonymous_world.
Proof.
  exact (@login_retry_keeps_target demo
           (mkRequest [("next", "http://evil.example.com")]) (mkRequest [("next", "/")])
           (ana_login "Secreta#1") anonymous_world ana
           eq_refl eq_refl eq_refl eq_refl eq_refl eq_refl).
Defined.


Lemma register_keeps_existing_accounts_witness :
  @find_user_by_email (store (snd (@register demo beto_form anonymous_world)))
                      "a@example.com" = Some ana.
Proof.
  exact (@register_keeps_existing_accounts demo beto_form anonymous_world
           "a@example.com" ana eq_refl).
Defined.

Lemma register_twice_second_rejected_witness :
  @register demo beto_form (snd (@register demo beto_form anonymous_world)) =
    (Returned (redirect "/register"),
     mkWorld [ana; beto] (Some beto) true false
             ["Bienvenido Beto."; "La dirección de correo ya ha sido registrada."]
             [] 100).
Proof.
  exact (@register_twice_second_rejected demo beto_form beto_form anonymous_world
           eq_refl eq_refl eq_refl eq_refl).
Defined.

Lemma demo_hasher_verifies (password : string) :
  @check_password_hash demo (@generate_password_hash demo password) password = true.
Proof. apply String.eqb_refl. Qed.

Lemma register_logout_login_round_trip_witness :
  exists new_user : User,
    current_user (snd (@register demo beto_form anonymous_world)) = Some new_user /\
    current_user (snd (@logout demo (snd (@register demo beto_form anonymous_world)))) =
      None /\
    @login demo (mkRequest [])
           (mkLoginForm true "b@example.com" "Clave#Beto3" true)
           (snd (@logout demo (snd (@register demo beto_form anonymous_world)))) =
      (Returned (redirect "/"),
       with_session (Some new_user) true true
         (snd (@logout demo (snd (@register demo beto_form anonymous_world))))).
Proof.
  exact (@register_logout_login_round_trip demo (mkRequest []) beto_form true
           anonymous_world demo_hasher_verifies eq_refl eq_refl).
Defined.


Lemma change_password_requires_fresh_login_witness :
  @change_password demo (mkChangePasswordForm true "Secreta#1" "Nueva#Clave2")
                   stale_ana_world =
    (Returned needs_refresh, stale_ana_world) /\
  @change_password demo (mkChangePasswordForm true "Secreta#1" "Nueva#Clave2")
                   anonymous_world =
    (Returned unauthorized, anonymous_world).
Proof.
  split.
  - exact (@change_password_requires_fresh_login demo
             (mkChangePasswordForm true "Secreta#1" "Nueva#Clave2") stale_ana_world
             (or_intror eq_refl)).
  - exact (@change_password_requires_fresh_login demo
             (mkChangePasswordForm true "Secreta#1" "Nueva#Clave2") anonymous_world
             (or_introl eq_refl)).
Defined.

Lemma change_password_writes_only_when_verified_witness :
  exists current : User,
    current_user ana_world = Some current /\
    fresh ana_world = true /\
    change_validate_on_submit (mkChangePasswordForm true "Secreta#1" "Nueva#Clave2") = true /\
    @check_password demo current "Secreta#1" = true /\
    "Secreta#1" <> "Nueva#Clave2".
Proof.
  apply (@change_password_writes_only_when_verified demo
           (mkChangePasswordForm true "Secreta#1" "Nueva#Clave2") ana_world).
  cbv. discriminate.
Defined.

Lemma change_password_user_deleted_witness :
  @change_password demo (mkChangePasswordForm true "Secreta#1" "Nueva#Clave2")
                   deleted_ana_world =
    (Returned (redirect "/not-found"), deleted_ana_world).
Proof.
  apply (@change_password_user_deleted demo
           (mkChangePasswordForm true "Secreta#1" "Nueva#Clave2") deleted_ana_world ana);
    try reflexivity.
  cbv. discriminate.
Defined.

Lemma change_password_saves_then_raises_witness :
  @change_password demo (mkChangePasswordForm true "Secreta#1" "Nueva#Clave2") ana_world =
    (Raised (AttributeError "Flash" "PASSWORD_CHANGE_SUCCESFUL"),
     with_store [set_password_hash "digest:Nueva#Clave2" ana] ana_world).
Proof.
  apply (@change_password_saves_then_raises demo
           (mkChangePasswordForm true "Secreta#1" "Nueva#Clave2") ana_world ana
           eq_refl eq_refl eq_refl ana); try reflexivity.
  cbv. discriminate.
Defined.

Lemma reset_views_send_logged_in_caller_home_witness :
  @password_reset_request demo (mkPasswordResetRequestForm true "a@example.com")
                          ana_world =
    (Returned (redirect "/"), ana_world) /\
  @password_reset demo "t0k3n" (mkPasswordResetForm true "Nueva#Clave2") ana_world =
    (Returned (redirect "/"), ana_world).
Proof.
  exact (@reset_views_send_logged_in_caller_home demo
           (mkPasswordResetRequestForm true "a@example.com") "t0k3n"
           (mkPasswordResetForm true "Nueva#Clave2") ana_world ana eq_refl).
Defined.

Lemma password_reset_unknown_token_changes_nothing_witness :
  @password_reset demo "adivinado" (mkPasswordResetForm true "Nueva#Clave2") token_world =
    (Returned (redirect "/"), token_world).
Proof.
  apply (@password_reset_unknown_token_changes_nothing demo "adivinado"
           (mkPasswordResetForm true "Nueva#Clave2") token_world eq_refl eq_refl).
  cbv. intros [Hsame|[]]. discriminate Hsame.
Defined.

Lemma no_submission_no_effect_witness :
  snd (@login demo (mkRequest []) (mkLoginForm false "a@example.com" "x" false)
              anonymous_world) = anonymous_world /\
  snd (@register demo
         (mkRegisterForm false "b@example.com" "Beto" "Soto" "Mora" "1988-05-17" "M"
                         "Alumno" "corta") anonymous_world) = anonymous_world /\
  snd (@change_password demo (mkChangePasswordForm false "Secreta#1" "corta")
                        anonymous_world) = anonymous_world /\
  snd (@password_reset_request demo (mkPasswordResetRequestForm false "no-es-correo")
                               anonymous_world) = anonymous_world /\
  snd (@password_reset demo "t0k3n" (mkPasswordResetForm false "corta") anonymous_world) =
    anonymous_world.
Proof.
  exact (@no_submission_no_effect demo (mkRequest [])
           (mkLoginForm false "a@example.com" "x" false)
           (mkRegisterForm false "b@example.com" "Beto" "Soto" "Mora" "1988-05-17" "M"
                           "Alumno" "corta")
           (mkChangePasswordForm false "Secreta#1" "corta")
           (mkPasswordResetRequestForm false "no-es-correo") "t0k3n"
           (mkPasswordResetForm false "corta") anonymous_world
           eq_refl eq_refl eq_refl eq_refl eq_refl).
Defined.

Lemma password_reset_request_always_raises_witness :
  exists e w',
    @password_reset_request demo (mkPasswordResetRequestForm true "a@example.com")
                            anonymous_world = (Raised e, w') /\
    flashes w' = flashes anonymous_world /\ outbox w' = outbox anonymous_world.
Proof.
  exact (@password_reset_request_always_raises demo
           (mkPasswordResetRequestForm true "a@example.com") anonymous_world
           eq_refl eq_refl).
Defined.

Section Compositions.

Context {ext : Externals}.

Lemma find_user_by_email_upsert (u : User) (st : list User) :
  find_user_by_email (upsert u st) (email u) = Some u.
Proof.
  unfold find_user_by_email.
  induction st as [|v rest IH]; cbn.
  - now rewrite String.eqb_refl.
  - destruct (String.eqb (email v) (email u)) eqn:Hmail; cbn.
    + now rewrite String.eqb_refl.
    + now rewrite Hmail.
Qed.

(** X24: a successful login followed by a logout leaves an anonymous caller
    anonymous again, with a session neither fresh nor remembered whatever
    the remember-me flag was, the store untouched, and the logout
    confirmation as the only new flash. *)
Theorem login_then_logout_restores_anonymous
    (request : Request) (form : LoginForm) (w : world) (user : User) :
  current_user w = None ->
  fresh w = false ->
  remembered w = false ->
  login_validate_on_submit form = true ->
  find_user_by_email (store w) (login_email form) = Some user ->
  check_password user (login_password form) = true ->
  snd (logout (snd (login request form w))) =
    with_flashes (flashes w ++ ["Ha cerrado sesión correctamente."]) w.
Proof.
  intros Hanon Hfresh Hremembered Hvalid Hfound Hpw.
  rewrite (login_success request form w user Hanon Hvalid Hfound Hpw).
  rewrite logout_run. cbn [snd]. unfold logged_out, with_flashes, with_session. cbn.
  destruct w as [st cur fr rem fl ob ck]. cbn in *. now subst.
Qed.

(** X25: with a hasher that verifies what it hashed, an accepted password
    change takes effect although the handler then raises: after it, and a
    logout, a login with the email of the session and the new password
    succeeds, as the stored user with the new digest. *)
Theorem changed_password_logs_in
    (request : Request) (form : ChangePasswordForm) (remember : bool)
    (w : world) (current user : User) :
  (forall password, check_password_hash (generate_password_hash password) password = true) ->
  current_user w = Some current ->
  fresh w = true ->
  change_validate_on_submit form = true ->
  check_password current (change_old_password form) = true ->
  change_old_password form <> change_password_data form ->
  find_user_by_email (store w) (email current) = Some user ->
  let changed := snd (change_password form w) in
  let logged_off := snd (logout changed) in
  fst (change_password form w) =
    Raised (AttributeError "Flash" "PASSWORD_CHANGE_SUCCESFUL") /\
  login request (mkLoginForm true (email current) (change_password_data form) remember)
        logged_off =
    (Returned (redirect (next_or_index (getattr (args request) "next"))),
     with_session
       (Some (set_password_hash (generate_password_hash (change_password_data form)) user))
       true remember logged_off).
Proof.
  intros Hhasher Hcur Hfresh Hvalid Hpw Hnew Hfound changed logged_off.
  assert (Hrun : change_password form w =
    (Raised (AttributeError "Flash" "PASSWORD_CHANGE_SUCCESFUL"),
     with_store
       (upsert (set_password_hash
                  (generate_password_hash (change_password_data form)) user)
               (store w)) w)).
  { apply String.eqb_neq in Hnew.
    unfold change_password, change_password_view, change_password_commit. run.
    rewrite Hcur. cbn [negb]. rewrite Hfresh. cbn [negb]. rewrite Hvalid. run.
    rewrite Hcur, Hpw, Hnew. run. rewrite Hcur. run. rewrite Hfound. reflexivity. }
  subst logged_off changed. rewrite Hrun. split; [reflexivity|].
  cbn [snd]. rewrite logout_run. cbn [snd].
  destruct (find_user_by_email_email _ _ _ Hfound) as [_ Hmail].
  apply login_success.
  - unfold logged_out. cbn. now rewrite Hcur.
  - reflexivity.
  - unfold logged_out. cbn [current_user with_store]. rewrite Hcur.
    cbn [store with_flashes with_session with_store login_email].
    rewrite <- Hmail.
    exact (find_user_by_email_upsert
             (set_password_hash (generate_password_hash (change_password_data form)) user)
             (store w)).
  - unfold check_password. cbn. apply Hhasher.
Qed.

End Compositions.

Lemma login_then_logout_restores_anonymous_witness :
  snd (@logout demo
         (snd (@login demo (mkRequest []) (mkLoginForm true "a@example.com" "Secreta#1" true)
                      anonymous_world))) =
    with_flashes ["Ha cerrado sesión correctamente."] anonymous_world.
Proof.
  exact (@login_then_logout_restores_anonymous demo (mkRequest [])
           (mkLoginForm true "a@example.com" "Secreta#1" true) anonymous_world ana
           eq_refl eq_refl eq_refl eq_refl eq_refl eq_refl).
Defined.

Lemma changed_password_logs_in_witness :
  fst (@change_password demo (mkChangePasswordForm true "Secreta#1" "Nueva#Clave2")
                        ana_world) =
    Raised (AttributeError "Flash" "PASSWORD_CHANGE_SUCCESFUL") /\
  @login demo (mkRequest []) (mkLoginForm true "a@example.com" "Nueva#Clave2" false)
         (snd (@logout demo
                 (snd (@change_password demo
                         (mkChangePasswordForm true "Secreta#1" "Nueva#Clave2")
                         ana_world)))) =
    (Returned (redirect "/"),
     with_session (Some (set_password_hash "digest:Nueva#Clave2" ana)) true false
       (snd (@logout demo
               (snd (@change_password demo
                       (mkChangePasswordForm true "Secreta#1" "Nueva#Clave2")
                       ana_world))))).
Proof.
  apply (@changed_password_logs_in demo (mkRequest [])
           (mkChangePasswordForm true "Secreta#1" "Nueva#Clave2") false ana_world ana ana
           demo_hasher_verifies eq_refl eq_refl eq_refl eq_refl).
  - cbv. discriminate.
  - reflexivity.
Defined.
